(** * vumi SMPP transport: a shallow embedding of
      [vumi/transports/smpp/smpp_transport.py] and the properties of its
      inbound path, teardown, sequence partitioning and protocol hook. *)

From Stdlib Require Import ZArith NArith Lia Ascii String.
From stdpp Require Import gmap strings list fin_maps.

Set Warnings "-register-all".
#[local] Open Scope string_scope.
#[local] Open Scope list_scope.

(** ** Python values and exceptions *)

Module Py.

(** The values the transport handles: [None], strings, integers, dicts with
    string keys, and objects seen through their attribute table (classes and
    modules). *)
Inductive pyval : Type :=
  | PyNone
  | PyStr (s : string)
  | PyInt (z : Z)
  | PyDict (d : gmap string pyval)
  | PyObj (attrs : gmap string pyval).

Inductive exn : Type :=
  | KeyError (key : pyval)
  | NameError (name : string)
  | AttributeError (attr : string)
  | TypeError (msg : string)
  | AlreadyCalledError
  | OtherError (what : string).

Inductive result (A : Type) : Type :=
  | Ok (a : A)
  | Raise (e : exn).
Arguments Ok {A} a.
Arguments Raise {A} e.

Definition raised {A} (r : result A) : bool :=
  match r with Ok _ => false | Raise _ => true end.

(** [v == s] for a string literal [s]. *)
Definition py_eq_str (v : pyval) (s : string) : bool :=
  match v with
  | PyStr t => String.eqb t s
  | _ => false
  end.

(** [d.get(k, default)] on a dict with string keys. *)
Definition dict_get (d : gmap string pyval) (k : string) (dflt : pyval) : pyval :=
  default dflt (d !! k).

(** [d[k]] for a string literal [k]. *)
Definition getitem (d : gmap string pyval) (k : string) : result pyval :=
  match d !! k with
  | Some v => Ok v
  | None => Raise (KeyError (PyStr k))
  end.

(** [d[k]] for a computed key: a dict is unhashable, any other value that is
    not one of the (string) keys is a [KeyError]. *)
Definition subscript (d : gmap string pyval) (k : pyval) : result pyval :=
  match k with
  | PyStr s => getitem d s
  | PyDict _ => Raise (TypeError "unhashable type: 'dict'")
  | _ => Raise (KeyError k)
  end.

(** [m[outer][inner] = v]: the item assignment reaches the dict stored under
    [outer], which is updated in place. *)
Definition setitem_in (m : gmap string pyval) (outer inner : string) (v : pyval)
  : result (gmap string pyval) :=
  match m !! outer with
  | Some (PyDict d) => Ok (<[outer := PyDict (<[inner := v]> d)]> m)
  | Some _ => Raise (TypeError "object does not support item assignment")
  | None => Raise (KeyError (PyStr outer))
  end.

(** A global name is looked up in the module namespace when the function
    runs; an unbound name is a [NameError]. *)
Definition load_global (G : gmap string pyval) (name : string) : result pyval :=
  match G !! name with
  | Some v => Ok v
  | None => Raise (NameError name)
  end.

Definition getattr (v : pyval) (a : string) : result pyval :=
  match v with
  | PyObj attrs =>
      match attrs !! a with
      | Some x => Ok x
      | None => Raise (AttributeError a)
      end
  | _ => Raise (AttributeError a)
  end.

End Py.
Export Py.

(** ** [uuid4().hex] *)

Module Uuid.

Definition hex_char (d : N) : ascii :=
  match d with
  | 0%N => "0" | 1%N => "1" | 2%N => "2" | 3%N => "3"
  | 4%N => "4" | 5%N => "5" | 6%N => "6" | 7%N => "7"
  | 8%N => "8" | 9%N => "9" | 10%N => "a" | 11%N => "b"
  | 12%N => "c" | 13%N => "d" | 14%N => "e" | _ => "f"
  end%char.


(** [k] hexadecimal digits of [n], most significant first, in front of [acc]. *)
Fixpoint hex_digits (k : nat) (n : N) (acc : string) : string :=
  match k with
  | O => acc
  | S k' => hex_digits k' (n / 16)%N (String (hex_char (n mod 16)%N) acc)
  end.

(** ['%032x' % int]: the [hex] attribute of a UUID, whose [int] is below
    [2^128]. *)
Definition hex (int : N) : string := hex_digits 32 int "".

Definition hex_value_char (c : ascii) : N :=
  match index 0 (String c "") "0123456789abcdef" with
  | Some i => N.of_nat i
  | None => 0%N
  end.

Fixpoint hex_value_from (acc : N) (s : string) : N :=
  match s with
  | EmptyString => acc
  | String c s' => hex_value_from (16 * acc + hex_value_char c)%N s'
  end.

(** The integer a hexadecimal string denotes. *)
Definition hex_value (s : string) : N := hex_value_from 0 s.

End Uuid.

(** ** Effects: the state a call can change, and calls that may raise *)

Module Effect.

(** What a call of the transport can change outside itself: how many UUIDs
    [uuid4] has handed out, the messages passed to [publish_message] (in call
    order), and the failures passed to [log.err]. *)
Record world : Type := World {
  uuids_drawn : nat;
  published : list (gmap string pyval);
  logged : list exn;
}.

(** A computation reads and updates the world and returns or raises; what it
    did before raising stays done. *)
Definition py (A : Type) : Type := world → result A * world.

Definition ret {A} (a : A) : py A := λ w, (Ok a, w).
Definition raise {A} (e : exn) : py A := λ w, (Raise e, w).
Definition lift {A} (r : result A) : py A := λ w, (r, w).
Definition bind {A B} (c : py A) (k : A → py B) : py B :=
  λ w, match c w with
       | (Ok a, w') => k a w'
       | (Raise e, w') => (Raise e, w')
       end.

End Effect.
Export Effect.

#[global] Instance py_ret : MRet py := @ret.
#[global] Instance py_bind : MBind py := λ A B k c, bind c k.

(** ** Twisted's [Deferred] *)

Module Defer.

(** How a Deferred's chain stands: a value, or a [Failure] wrapping an
    exception. *)
Inductive outcome : Type :=
  | Value (v : pyval)
  | Failure (e : exn).

(** One [addCallbacks] entry: what to do with a value and with a failure. *)
Record handler : Type := Handler {
  on_value : pyval → world → outcome * world;
  on_failure : exn → world → outcome * world;
}.

(** A Deferred: its current result once it was called, and the entries still
    waiting for one. *)
Record Deferred : Type := MkDeferred {
  current : option outcome;
  waiting : list handler;
}.

Definition run_handler (h : handler) (o : outcome) (w : world) : outcome * world :=
  match o with
  | Value v => on_value h v w
  | Failure e => on_failure h e w
  end.

Fixpoint run_chain (hs : list handler) (o : outcome) (w : world) : outcome * world :=
  match hs with
  | [] => (o, w)
  | h :: hs' => let '(o', w') := run_handler h o w in run_chain hs' o' w'
  end.

Definition passthru : pyval → world → outcome * world := λ v w, (Value v, w).

(** [d.addErrback(eb)]: values pass through; the entry runs at once when the
    Deferred has a result already. The same Deferred is returned. *)
Definition addErrback (eb : exn → world → outcome * world) (d : Deferred)
  : py Deferred :=
  λ w, let h := Handler passthru eb in
       match current d with
       | None => (Ok (MkDeferred None (waiting d ++ [h])), w)
       | Some o =>
           let '(o', w') := run_chain (waiting d ++ [h]) o w in
           (Ok (MkDeferred (Some o') []), w')
       end.

(** [d.callback(v)] / [d.errback(f)]: the holder of the Deferred delivers its
    result, and the waiting entries run in order. *)
Definition fire (o : outcome) (d : Deferred) : py Deferred :=
  λ w, match current d with
       | Some _ => (Raise AlreadyCalledError, w)
       | None =>
           let '(o', w') := run_chain (waiting d) o w in
           (Ok (MkDeferred (Some o') []), w')
       end.

(** Whether the Deferred stands at a failure nobody handled. *)
Definition failed (d : Deferred) : bool :=
  match current d with
  | Some (Failure _) => true
  | _ => false
  end.

End Defer.
Export Defer.

(** ** The inbound path of [SmppTransport] *)

Module Inbound.

(** Modelled from the spec: [vumi.log.err], whose module is not among the
    sources; a failure handed
    to it "is logged", and the errback chain goes on with [None]. *)
Definition log_err (e : exn) (w : world) : outcome * world :=
  (Value PyNone, World (uuids_drawn w) (published w) (logged w ++ [e])).

Section Transport.

(** The module namespace in which the method body runs. *)
Variable G : gmap string pyval.

(** [uuid4_int n] is the [int] of the [n]-th UUID that [uuid4()] returns;
    a UUID has 128 bits. *)
Variable uuid4_int : nat → N.

(** [Transport.publish_message] belongs to the base class in
    [vumi.transports.base], which is not among the sources, so what it does
    with the [n]-th message [m] handed to it is a parameter: the call
    raises, or it returns a Deferred, and [publish_state n m] says which,
    and for a Deferred where it stands when it is returned: not called yet,
    or called with a value or a failure. *)
Variable publish_state : nat → gmap string pyval → result (option outcome).

Definition uuid4_hex : py string :=
  λ w, (Ok (Uuid.hex (uuid4_int (uuids_drawn w) mod 2 ^ 128)%N),
        World (S (uuids_drawn w)) (published w) (logged w)).

(** The call receives the message, which [published] records, whether it
    then raises or returns its Deferred. *)
Definition publish_message (message : gmap string pyval) : py Deferred :=
  λ w, let w' := World (uuids_drawn w) (published w ++ [message]) (logged w) in
       match publish_state (length (published w)) message with
       | Ok st => (Ok (MkDeferred st []), w')
       | Raise e => (Raise e, w')
       end.

(** The body of [handle_raw_inbound_message] up to its [return]: the
    message dict is built, and completed when the message is USSD. *)
Definition inbound_message (kwargs : gmap string pyval) : py (gmap string pyval) :=
  let message_type := dict_get kwargs "message_type" (PyStr "sms") in
  message_id ← uuid4_hex;
  to_addr ← lift (getitem kwargs "destination_addr");
  from_addr ← lift (getitem kwargs "source_addr");
  content ← lift (getitem kwargs "short_message");
  let message : gmap string pyval :=
    <["transport_metadata" := PyDict ∅]>
    (<["transport_type" := message_type]>
    (<["content" := content]>
    (<["from_addr" := from_addr]>
    (<["to_addr" := to_addr]>
    (<["message_id" := PyStr message_id]> ∅))))) in
  if py_eq_str message_type "ussd" then
    c_new ← lift (load_global G "TransportUserMessage");
    v_new ← lift (getattr c_new "SESSION_NEW");
    c_resume ← lift (load_global G "TransportUserMessage");
    v_resume ← lift (getattr c_resume "SESSION_RESUME");
    c_close ← lift (load_global G "TransportUserMessage");
    v_close ← lift (getattr c_close "SESSION_CLOSE");
    let table : gmap string pyval :=
      <["close" := v_close]>
      (<["continue" := v_resume]>
      (<["new" := v_new]> ∅)) in
    indicator ← lift (getitem kwargs "session_event");
    session_event ← lift (subscript table indicator);
    let message := <["session_event" := session_event]> message in
    let session_info := dict_get kwargs "session_info" PyNone in
    lift (setitem_in message "transport_metadata" "session_info" session_info)
  else mret message.

(** The message's items are the keyword arguments of [publish_message];
    [log.err] is added as errback to the Deferred it returns, and that
    Deferred is the method's result. *)
Definition handle_raw_inbound_message (kwargs : gmap string pyval) : py Deferred :=
  message ← inbound_message kwargs;
  d ← publish_message message;
  addErrback log_err d.

End Transport.

(** The names the module binds: its imports and its three classes. The
    objects behind the imports live outside this file and are seen as
    attribute tables; nothing here reads their attributes. *)
Definition module_globals : gmap string pyval :=
  list_to_map
    ((λ name, (name, PyObj ∅)) <$>
       [ "uuid4"; "reactor"; "inlineCallbacks"; "ReconnectingClientService";
         "Transport"; "SmppTransportConfig"; "EsmeConfig";
         "EsmeTransceiverFactory"; "RedisSequence"; "TxRedisManager"; "log";
         "SmppTransceiverProtocol"; "SmppTransportClientFactory";
         "SmppTransport" ]).

(** Modelled from the spec: the class [TransportUserMessage] of
    [vumi.message], a module not among the sources; its session constants
    are the spec's
    "new", "resume" and "close". *)
Definition TransportUserMessage : pyval :=
  PyObj (<["SESSION_NEW" := PyStr "new"]>
        (<["SESSION_RESUME" := PyStr "resume"]>
        (<["SESSION_CLOSE" := PyStr "close"]> ∅))).

(** The module namespace as it would be with
    [from vumi.message import TransportUserMessage]. *)
Definition globals_with_import : gmap string pyval :=
  <["TransportUserMessage" := TransportUserMessage]> module_globals.

(** The three keys every call reads. *)
Definition has_required (kwargs : gmap string pyval) : bool :=
  bool_decide (is_Some (kwargs !! "destination_addr"))
  && bool_decide (is_Some (kwargs !! "source_addr"))
  && bool_decide (is_Some (kwargs !! "short_message")).

Definition message_type_of (kwargs : gmap string pyval) : pyval :=
  dict_get kwargs "message_type" (PyStr "sms").

Definition is_ussd (kwargs : gmap string pyval) : bool :=
  py_eq_str (message_type_of kwargs) "ussd".

(** The session indicator is one of the three the table knows. *)
Definition known_indicator (kwargs : gmap string pyval) : bool :=
  match kwargs !! "session_event" with
  | Some (PyStr s) => bool_decide (s ∈ ["new"; "continue"; "close"])
  | _ => false
  end.

(** The message an SMS call builds from the three values it reads. *)
Definition sms_message (message_id : string) (kwargs : gmap string pyval)
    (to_addr from_addr content : pyval) : gmap string pyval :=
  <["transport_metadata" := PyDict ∅]>
  (<["transport_type" := message_type_of kwargs]>
  (<["content" := content]>
  (<["from_addr" := from_addr]>
  (<["to_addr" := to_addr]>
  (<["message_id" := PyStr message_id]> ∅))))).

(** The identifier the next call gives its message. *)
Definition message_id_at (uuid4_int : nat → N) (w : world) : string :=
  Uuid.hex (uuid4_int (uuids_drawn w) mod 2 ^ 128)%N.

(** The world after the message dict was built: one more UUID is drawn. *)
Definition drawn (w : world) : world :=
  World (S (uuids_drawn w)) (published w) (logged w).

(** The mapping of session indicators in the spec's words: "new" to new,
    "continue" to resume, "close" to close, nothing else. *)
Definition session_event_for (indicator : string) : option string :=
  if String.eqb indicator "new" then Some "new"
  else if String.eqb indicator "continue" then Some "resume"
  else if String.eqb indicator "close" then Some "close"
  else None.

Definition w0 : world := World 0 [] [].

(** UUID sources and publishers to run examples with: a source that counts
    up and one that returns the same UUID every time; a publisher whose
    Deferred has not fired, one whose Deferred has failed, and one that
    raises when it is called. *)
Definition count_up : nat → N := N.of_nat.
Definition pending : nat → gmap string pyval → result (option outcome) :=
  λ _ _, Ok None.
Definition failing : nat → gmap string pyval → result (option outcome) :=
  λ _ _, Ok (Some (Failure (OtherError "cannot serialize to JSON"))).
Definition raising : nat → gmap string pyval → result (option outcome) :=
  λ _ _, Raise (OtherError "missing message field").

Definition sms_kwargs : gmap string pyval :=
  <["destination_addr" := PyStr "1234"]>
  (<["source_addr" := PyStr "+27831234567"]>
  (<["short_message" := PyStr "hello"]> ∅)).

Definition ussd_kwargs (indicator : string) : gmap string pyval :=
  <["message_type" := PyStr "ussd"]>
  (<["session_event" := PyStr indicator]> sms_kwargs).

End Inbound.


(** ** The protocol class and its factory *)

Module Protocol.

(** Modelled from the spec: the session the base protocol of
    [clientserver/new_client.py] (not among the sources) drives. *)
Inductive session_state : Type := UNBOUND | BINDING | BOUND | UNBINDING | DEAD.

Inductive pdu : Type :=
  | bind_transceiver (system_id password : string)
  | unbind.

Record session : Type := MkSession {
  state : session_state;
  credentials : string * string;
  written : list pdu;
  bind_timer : bool;
}.

(** A method body: code of the base protocol, or [return self.name()]. *)
Inductive body : Type :=
  | Native (run : session → result unit * session)
  | CallSelf (name : string).

(** A class: the methods it defines itself, and its base class. *)
Inductive class : Type :=
  | Class (own : gmap string body) (base : option class).

(** Attribute lookup along the inheritance chain. *)
Fixpoint resolve (c : class) (name : string) : option body :=
  match c with
  | Class own base =>
      match own !! name with
      | Some b => Some b
      | None =>
          match base with
          | Some c' => resolve c' name
          | None => None
          end
      end
  end.

(** Calling method [name] on an instance of [c]; [depth] is the room left on
    the call stack. *)
Fixpoint invoke (depth : nat) (c : class) (name : string) (s : session)
  : result unit * session :=
  match resolve c name with
  | None => (Raise (AttributeError name), s)
  | Some (Native run) => run s
  | Some (CallSelf m) =>
      match depth with
      | O => (Raise (OtherError "maximum recursion depth exceeded"), s)
      | S depth' => invoke depth' c m s
      end
  end.

(** [class SmppTransceiverProtocol(EsmeTransceiverFactory.protocol)] *)
Definition SmppTransceiverProtocol (base_protocol : class) : class :=
  Class {[ "onConnectionMade" := CallSelf "bind" ]} (Some base_protocol).

(** A factory class, seen through its [protocol] attribute. *)
Record factory : Type := MkFactory { protocol : class }.

(** [class SmppTransportClientFactory(EsmeTransceiverFactory)] *)
Definition SmppTransportClientFactory (EsmeTransceiverFactory : factory) : factory :=
  MkFactory (SmppTransceiverProtocol (protocol EsmeTransceiverFactory)).

(** Modelled from the spec: the base protocol's [bind] is the transition
    "UNBOUND -> BINDING: on connection open, send a bind_transceiver PDU
    built from configured credentials, start a bind-response timer". *)
Definition base_bind (s : session) : result unit * session :=
  match state s with
  | UNBOUND =>
      (Ok (), MkSession BINDING (credentials s)
                (written s ++ [bind_transceiver (fst (credentials s)) (snd (credentials s))])
                true)
  | _ => (Raise (OtherError "bind outside UNBOUND"), s)
  end.

(** Modelled from the spec: the base protocol of [EsmeTransceiverFactory]
    (not among the sources) calls the [onConnectionMade] hook when the connection
    opens; its own hook does nothing. *)
Definition EsmeTransceiver : class :=
  Class (<["connectionMade" := CallSelf "onConnectionMade"]>
        (<["onConnectionMade" := Native (λ s, (Ok (), s))]>
        (<["bind" := Native base_bind]> ∅))) None.

Definition EsmeTransceiverFactory : factory := MkFactory EsmeTransceiver.

Definition fresh_session : session := MkSession UNBOUND ("vumi", "secret") [] false.

End Protocol.

(** ** Setting up and tearing down the transport *)

Module Lifecycle.

(** The fields of [EsmeConfig] and [SmppTransportConfig] that the transport
    reads. An unset [split_bind_prefix] is [None]. *)
Record EsmeConfig : Type := MkEsmeConfig {
  system_id : string;
  password : string;
}.

Record SmppTransportConfig : Type := MkConfig {
  twisted_endpoint : string;
  transport_name : string;
  split_bind_prefix : option string;
  smpp_config : EsmeConfig;
  delivery_report_processor : string;
  short_message_processor : string;
}.

(** [a or b] on an optional string: [None] and the empty string are false. *)
Definition py_or (a : option string) (b : string) : string :=
  match a with
  | Some EmptyString => b
  | Some s => s
  | None => b
  end.

(** ['%s@%s' % (system_id, transport_name)] *)
Definition default_prefix (config : SmppTransportConfig) : string :=
  system_id (smpp_config config) +:+ "@" +:+ transport_name config.

Definition redis_prefix (config : SmppTransportConfig) : string :=
  py_or (split_bind_prefix config) (default_prefix config).

(** Modelled from the spec: [vumi.persist.txredis_manager], not among the
    sources.
    The manager is a connection to the durable store, scoped by
    [sub_manager] to one partition key. *)
Record RedisManager : Type := MkRedis {
  partition_key : string;
  connection_open : bool;
}.

Definition from_config : RedisManager := MkRedis "" true.
Definition sub_manager (prefix : string) (r : RedisManager) : RedisManager :=
  MkRedis prefix (connection_open r).

(** One way a manager's [_close] may behave, for examples: the connection
    ends closed, and closing a closed connection is accepted. Neither the
    sources nor the spec say what the manager's own [_close] does, so
    teardown below takes it as a parameter. *)
Definition _close (r : RedisManager) : RedisManager :=
  MkRedis (partition_key r) false.


(** Modelled from the spec: [vumi.reconnecting_client], not among the
    sources. The
    connection supervisor has at most one connection, being attempted or
    open; [startService] begins attempting, [stopService] "is idempotent
    and, once called, guarantees no further connection attempts and cancels
    any in-progress attempt"; a failure or loss not caused by stopping
    schedules a retry. *)
Inductive connection : Type := CONNECTING | OPEN.

Record ReconnectingClientService : Type := MkService {
  endpoint : string;
  running : bool;
  link : option connection;
  attempts : nat;
}.

Definition startService (s : ReconnectingClientService) : ReconnectingClientService :=
  if running s then s
  else MkService (endpoint s) true (Some CONNECTING) (S (attempts s)).

Definition stopService (s : ReconnectingClientService) : ReconnectingClientService :=
  MkService (endpoint s) false None (attempts s).

(** What can happen to the supervisor from outside. *)
Inductive supervisor_event : Type :=
  | Connected
  | ConnectFailed
  | ConnectionLost
  | RetryTimer.

Definition supervise (s : ReconnectingClientService) (ev : supervisor_event)
  : ReconnectingClientService :=
  match ev, link s with
  | Connected, Some CONNECTING => MkService (endpoint s) (running s) (Some OPEN) (attempts s)
  | ConnectFailed, Some CONNECTING => MkService (endpoint s) (running s) None (attempts s)
  | ConnectionLost, Some OPEN => MkService (endpoint s) (running s) None (attempts s)
  | RetryTimer, None =>
      if running s
      then MkService (endpoint s) true (Some CONNECTING) (S (attempts s))
      else s
  | _, _ => s
  end.

Definition supervise_all (s : ReconnectingClientService) (evs : list supervisor_event)
  : ReconnectingClientService :=
  foldl supervise s evs.

(** [RedisSequence(self.redis)] keeps a reference to the manager object that
    [self.redis] holds: the generator reads the transport's own manager. *)
Inductive RedisSequence : Type := RedisSequenceOn_self_redis.

(** The calls the transport makes on its collaborators, in order. *)
Inductive call : Type :=
  | LogMsg (text : string)
  | StartService (endpoint : string)
  | StopService
  | CloseStore (partition : string).

(** An instance attribute: never assigned (reading it is an
    [AttributeError]), holding [None], or holding an object. *)
Inductive attr (A : Type) : Type :=
  | Unset
  | IsNone
  | Obj (a : A).
Arguments Unset {A}.
Arguments IsNone {A}.
Arguments Obj {A} a.

Definition attr_map {A B} (f : A → B) (x : attr A) : attr B :=
  match x with
  | Unset => Unset
  | IsNone => IsNone
  | Obj a => Obj (f a)
  end.

(** The instance attributes of [SmppTransport] and the calls it has made. *)
Record SmppTransport : Type := MkTransport {
  config : SmppTransportConfig;
  redis : attr RedisManager;
  dr_processor : attr string;
  sm_processor : attr string;
  sequence_generator : attr RedisSequence;
  factory : attr Protocol.factory;
  service : attr ReconnectingClientService;
  calls : list call;
}.

Definition new_transport (config : SmppTransportConfig) : SmppTransport :=
  MkTransport config Unset Unset Unset Unset Unset Unset [].

Definition start_service (t : SmppTransport) (calls : list call)
  : ReconnectingClientService * list call :=
  let service := MkService (twisted_endpoint (config t)) false None 0 in
  (startService service, calls ++ [StartService (twisted_endpoint (config t))]).

Definition setup_transport (t : SmppTransport) : SmppTransport :=
  let config := config t in
  let calls :=
    calls t ++ [LogMsg ("Starting SMPP Transport for: " +:+ twisted_endpoint config)] in
  let redis := sub_manager (redis_prefix config) from_config in
  let '(service, calls) := start_service t calls in
  MkTransport config (Obj redis)
    (Obj (delivery_report_processor config))
    (Obj (short_message_processor config))
    (Obj RedisSequenceOn_self_redis)
    (Obj (Protocol.SmppTransportClientFactory Protocol.EsmeTransceiverFactory))
    (Obj service) calls.

(** [if self.service: yield self.service.stopService()] *)
Definition stop_if_service (t : SmppTransport) : result unit * SmppTransport :=
  match service t with
  | Unset => (Raise (AttributeError "service"), t)
  | IsNone => (Ok (), t)
  | Obj svc =>
      (Ok (), MkTransport (config t) (redis t) (dr_processor t) (sm_processor t)
                (sequence_generator t) (factory t) (Obj (stopService svc))
                (calls t ++ [StopService]))
  end.

Section Teardown.

(** The manager's [_close]: it fails, or leaves the manager in a new state. *)
Variable redis_close : RedisManager → result RedisManager.

(** [yield self.redis._close()]: the call is made on the manager that
    [self.redis] holds, and a failure of it is the failure of teardown. *)
Definition close_redis (t : SmppTransport) : result unit * SmppTransport :=
  match redis t with
  | Unset => (Raise (AttributeError "redis"), t)
  | IsNone => (Raise (AttributeError "_close"), t)
  | Obj r =>
      match redis_close r with
      | Ok r' =>
          (Ok (), MkTransport (config t) (Obj r') (dr_processor t) (sm_processor t)
                    (sequence_generator t) (factory t) (service t)
                    (calls t ++ [CloseStore (partition_key r)]))
      | Raise e =>
          (Raise e, MkTransport (config t) (redis t) (dr_processor t) (sm_processor t)
                      (sequence_generator t) (factory t) (service t)
                      (calls t ++ [CloseStore (partition_key r)]))
      end
  end.

Definition teardown_transport (t : SmppTransport) : result unit * SmppTransport :=
  match stop_if_service t with
  | (Ok _, t1) => close_redis t1
  | (Raise e, t1) => (Raise e, t1)
  end.

End Teardown.

(** The supervisor of a transport reacting to outside events. *)
Definition transport_events (t : SmppTransport) (evs : list supervisor_event)
  : SmppTransport :=
  MkTransport (config t) (redis t) (dr_processor t) (sm_processor t)
    (sequence_generator t) (factory t)
    (attr_map (λ s, supervise_all s evs) (service t)) (calls t).

Definition attempts_of (t : SmppTransport) : nat :=
  match service t with Obj s => attempts s | _ => 0 end.





(** The partition a transport allocates in, and its counter there. *)
Definition partition_of (t : SmppTransport) : option string :=
  match redis t with Obj r => Some (partition_key r) | _ => None end.


Definition example_config : SmppTransportConfig :=
  MkConfig "tcp:host=127.0.0.1:port=2775" "smpp_transport" None
    (MkEsmeConfig "vumi" "secret") "dr" "sm".

Definition split_config : SmppTransportConfig :=
  MkConfig "tcp:host=127.0.0.1:port=2775" "smpp_transport" (Some "bind_a")
    (MkEsmeConfig "vumi" "secret") "dr" "sm".

End Lifecycle.

(** ** Runs of inbound calls, and readings of their arguments *)

Module Usage.
Import Inbound.

(** The keys every call reads, in the order the message dict reads them. *)
Definition required_keys : list string :=
  ["destination_addr"; "source_addr"; "short_message"].

(** The first of the required keys that the arguments lack. *)
Definition first_missing (kwargs : gmap string pyval) : option string :=
  List.find (λ key, negb (bool_decide (is_Some (kwargs !! key)))) required_keys.

(** The keys of a message built for SMS. *)
Definition message_keys : gset string :=
  {[ "message_id"; "to_addr"; "from_addr"; "content"; "transport_type";
     "transport_metadata" ]}.

(** One call after the other, each in the world the one before left; a call
    that raises leaves its caller to go on with the next. *)
Definition handle_all (G : gmap string pyval) (uuid4_int : nat → N)
    (publish_state : nat → gmap string pyval → result (option outcome))
    (batch : list (gmap string pyval)) (w : world) : world :=
  foldl (λ w kwargs, snd (handle_raw_inbound_message G uuid4_int publish_state kwargs w))
    w batch.

Definition message_ids (ms : list (gmap string pyval)) : list (option pyval) :=
  (λ m : gmap string pyval, m !! "message_id") <$> ms.

(** A publisher whose Deferred has fired with the message already. *)
Definition delivering : nat → gmap string pyval → result (option outcome) :=
  λ _ m, Ok (Some (Value (PyDict m))).

(** Whether a string contains the separator of the default prefix. *)
Fixpoint has_at (s : string) : bool :=
  match s with
  | EmptyString => false
  | String c s' => Ascii.eqb c "@" || has_at s'
  end.

(** A transport whose [service] attribute holds [None], and one whose
    [redis] attribute does. *)
Definition without_service (t : Lifecycle.SmppTransport) : Lifecycle.SmppTransport :=
  Lifecycle.MkTransport (Lifecycle.config t) (Lifecycle.redis t)
    (Lifecycle.dr_processor t) (Lifecycle.sm_processor t)
    (Lifecycle.sequence_generator t) (Lifecycle.factory t) Lifecycle.IsNone
    (Lifecycle.calls t).


(** A protocol class derived from the transport's, with a [bind] of its own
    that sends [unbind] instead. *)
Definition own_bind (s : Protocol.session) : result unit * Protocol.session :=
  (Ok (), Protocol.MkSession (Protocol.state s) (Protocol.credentials s)
            (Protocol.written s ++ [Protocol.unbind]) (Protocol.bind_timer s)).

Definition derived_protocol : Protocol.class :=
  Protocol.Class {[ "bind" := Protocol.Native own_bind ]}
    (Some (Protocol.SmppTransceiverProtocol Protocol.EsmeTransceiver)).

End Usage.

(** * Properties *)

(** ** UUID identifiers *)

Module UuidFacts.
Import Uuid.


Lemma hex_value_hex_char d : (d < 16)%N → hex_value_char (hex_char d) = d.
Proof.
  intros Hd. destruct d as [|p]; [reflexivity|].
  do 4 (destruct p as [p|p|]; try reflexivity); lia.
Qed.



Lemma hex_value_digits k : ∀ n acc a,
  hex_value_from a (hex_digits k n acc)
  = hex_value_from (a * 16 ^ N.of_nat k + n mod 16 ^ N.of_nat k)%N acc.
Proof.
  induction k as [|k IH]; intros n acc a.
  - simpl. rewrite N.mod_1_r. f_equal. lia.
  - cbn [hex_digits]. rewrite IH. cbn [hex_value_from].
    rewrite hex_value_hex_char by (apply N.mod_lt; lia).
    f_equal. rewrite Nat2N.inj_succ, N.pow_succ_r'.
    rewrite (N.Div0.mod_mul_r n 16). lia.
Qed.



Lemma hex_value_hex int : hex_value (hex int) = (int mod 2 ^ 128)%N.
Proof.
  unfold hex_value, hex. rewrite hex_value_digits. simpl hex_value_from.
  change (16 ^ N.of_nat 32)%N with (2 ^ 128)%N. lia.
Qed.

Lemma hex_inj a b :
  hex (a mod 2 ^ 128) = hex (b mod 2 ^ 128) → (a mod 2 ^ 128 = b mod 2 ^ 128)%N.
Proof.
  intros H. apply (f_equal hex_value) in H.
  rewrite !hex_value_hex, !N.Div0.mod_mod in H. exact H.
Qed.

End UuidFacts.

(** ** The inbound path *)

Module InboundFacts.
Import Inbound.

Ltac run_py :=
  unfold handle_raw_inbound_message, inbound_message, publish_message, uuid4_hex,
    addErrback, mbind, mret, py_bind, py_ret, bind, ret, lift, getitem, dict_get;
  cbn [fst snd current waiting app run_chain run_handler on_value on_failure
       passthru log_err uuids_drawn published logged default].

Lemma has_required_inv kwargs :
  has_required kwargs = true →
  ∃ to_addr from_addr content,
    kwargs !! "destination_addr" = Some to_addr
    ∧ kwargs !! "source_addr" = Some from_addr
    ∧ kwargs !! "short_message" = Some content.
Proof.
  unfold has_required. intros H.
  apply andb_prop in H as [H H3]. apply andb_prop in H as [H1 H2].
  apply bool_decide_eq_true in H1 as [a Ha], H2 as [b Hb], H3 as [c Hc].
  eauto 10.
Qed.

Lemma py_eq_str_true v s : py_eq_str v s = true → v = PyStr s.
Proof.
  destruct v; simpl; try discriminate.
  intros H. apply String.eqb_eq in H. congruence.
Qed.

Section Facts.
Variable G : gmap string pyval.
Variable uuid4_int : nat → N.
Variable publish_state : nat → gmap string pyval → result (option outcome).

(** The method is its message construction followed by the publication;
    an exception of the publisher is the method's. *)
Lemma handle_unfold kwargs w :
  handle_raw_inbound_message G uuid4_int publish_state kwargs w =
    match inbound_message G uuid4_int kwargs w with
    | (Ok m, w1) =>
        match publish_state (length (published w1)) m with
        | Ok st =>
            addErrback log_err (MkDeferred st [])
              (World (uuids_drawn w1) (published w1 ++ [m]) (logged w1))
        | Raise e =>
            (Raise e, World (uuids_drawn w1) (published w1 ++ [m]) (logged w1))
        end
    | (Raise e, w1) => (Raise e, w1)
    end.
Proof.
  unfold handle_raw_inbound_message, publish_message, mbind, py_bind, bind.
  destruct (inbound_message G uuid4_int kwargs w) as [[m|e] w1]; [|reflexivity].
  destruct (publish_state (length (published w1)) m); reflexivity.
Qed.

(** Registering [log.err] on a fresh Deferred never raises: a failure that
    is already there is logged and replaced by [None]. *)
Lemma addErrback_log_err st w :
  addErrback log_err (MkDeferred st []) w =
    match st with
    | None => (Ok (MkDeferred None [Handler passthru log_err]), w)
    | Some (Value v) => (Ok (MkDeferred (Some (Value v)) []), w)
    | Some (Failure e) =>
        (Ok (MkDeferred (Some (Value PyNone)) []),
         World (uuids_drawn w) (published w) (logged w ++ [e]))
    end.
Proof. destruct st as [[v|e]|]; reflexivity. Qed.

(** Building the message draws one UUID and touches nothing else, whether
    it ends in a message or in an exception. *)
Lemma inbound_message_world kwargs w :
  snd (inbound_message G uuid4_int kwargs w) = drawn w.
Proof.
  run_py.
  destruct (kwargs !! "destination_addr"); [|reflexivity].
  destruct (kwargs !! "source_addr"); [|reflexivity].
  destruct (kwargs !! "short_message"); [|reflexivity].
  destruct (py_eq_str _ "ussd"); [|reflexivity].
  destruct (load_global G "TransportUserMessage") as [c|]; [|reflexivity].
  destruct (getattr c "SESSION_NEW"); [|reflexivity].
  destruct (getattr c "SESSION_RESUME"); [|reflexivity].
  destruct (getattr c "SESSION_CLOSE"); [|reflexivity].
  destruct (kwargs !! "session_event"); [|reflexivity].
  destruct (subscript _ _); [|reflexivity].
  destruct (setitem_in _ _ _ _); reflexivity.
Qed.

Lemma inbound_message_sms kwargs w to_addr from_addr content :
  kwargs !! "destination_addr" = Some to_addr →
  kwargs !! "source_addr" = Some from_addr →
  kwargs !! "short_message" = Some content →
  is_ussd kwargs = false →
  inbound_message G uuid4_int kwargs w =
    (Ok (sms_message (message_id_at uuid4_int w) kwargs to_addr from_addr content),
     drawn w).
Proof.
  intros H1 H2 H3 Hu. unfold is_ussd, message_type_of, dict_get in Hu.
  run_py. rewrite H1, H2, H3, Hu. reflexivity.
Qed.

(** A call that misses one of the three keys raises [KeyError] for the
    first one missing, and publishes nothing. *)
Lemma missing_required_raises kwargs w :
  has_required kwargs = false →
  ∃ key, key ∈ ["destination_addr"; "source_addr"; "short_message"]
    ∧ kwargs !! key = None
    ∧ handle_raw_inbound_message G uuid4_int publish_state kwargs w
      = (Raise (KeyError (PyStr key)), drawn w).
Proof.
  intros H. rewrite handle_unfold.
  pose proof (inbound_message_world kwargs w) as Hw. revert Hw H.
  unfold has_required. run_py.
  destruct (kwargs !! "destination_addr") as [a|] eqn:Ha.
  2:{ intros _ _. exists "destination_addr". split; [apply list_elem_of_here|done]. }
  destruct (kwargs !! "source_addr") as [b|] eqn:Hb.
  2:{ intros _ _. exists "source_addr".
      split; [apply list_elem_of_further, list_elem_of_here|done]. }
  destruct (kwargs !! "short_message") as [c|] eqn:Hc.
  2:{ intros _ _. exists "short_message".
      split; [do 2 apply list_elem_of_further; apply list_elem_of_here|done]. }
  intros _ H. exfalso. revert H.
  rewrite !bool_decide_eq_true_2 by eauto. discriminate.
Qed.

(** What a message that was built holds. *)
Lemma inbound_message_fields kwargs w m w1 :
  inbound_message G uuid4_int kwargs w = (Ok m, w1) →
  m !! "message_id" = Some (PyStr (message_id_at uuid4_int w))
  ∧ m !! "to_addr" = kwargs !! "destination_addr"
  ∧ m !! "from_addr" = kwargs !! "source_addr"
  ∧ m !! "content" = kwargs !! "short_message"
  ∧ m !! "transport_type" = Some (message_type_of kwargs)
  ∧ (if is_ussd kwargs
     then is_Some (m !! "session_event")
          ∧ m !! "transport_metadata"
            = Some (PyDict {[ "session_info" := dict_get kwargs "session_info" PyNone ]})
     else m !! "session_event" = None
          ∧ m !! "transport_metadata" = Some (PyDict ∅)).
Proof.
  unfold is_ussd, message_type_of. run_py.
  destruct (kwargs !! "destination_addr") as [a|]; [|discriminate].
  destruct (kwargs !! "source_addr") as [b|]; [|discriminate].
  destruct (kwargs !! "short_message") as [c|]; [|discriminate].
  destruct (py_eq_str _ "ussd").
  - destruct (load_global G "TransportUserMessage") as [cls|]; [|discriminate].
    destruct (getattr cls "SESSION_NEW"); [|discriminate].
    destruct (getattr cls "SESSION_RESUME"); [|discriminate].
    destruct (getattr cls "SESSION_CLOSE"); [|discriminate].
    destruct (kwargs !! "session_event"); [|discriminate].
    destruct (subscript _ _) as [ev|]; [|discriminate].
    unfold setitem_in. rewrite lookup_insert_ne, lookup_insert_eq by done.
    intros [= <- _]. repeat split; try reflexivity. eexists; reflexivity.
  - intros [= <- _]. repeat split; reflexivity.
Qed.

(** A message that was built is handed to [publish_message], whatever that
    call does next: [published] grows by this message and no other. *)
Lemma built_message_handed_over kwargs w m w1 :
  inbound_message G uuid4_int kwargs w = (Ok m, w1) →
  published (snd (handle_raw_inbound_message G uuid4_int publish_state kwargs w))
  = published w ++ [m].
Proof.
  intros Hm. pose proof (inbound_message_world kwargs w) as Hw.
  rewrite Hm in Hw. simpl in Hw. subst w1. rewrite handle_unfold, Hm.
  destruct (publish_state _ m) as [st|e]; [|reflexivity].
  rewrite addErrback_log_err. destruct st as [[v|e]|]; reflexivity.
Qed.


(** C7, as the code has it: once the canonical message is rebuilt, what
    becomes of a publishing failure depends on how it arrives. A failure
    carried by the Deferred that [publish_message] returns, already or later,
    is logged and replaced by [None]: the call returns and the caller never
    sees that failure. An exception raised by the [publish_message] call
    itself is not caught: it leaves the method, and nothing is logged. *)
Theorem publish_failure_is_logged kwargs w m w1 :
  inbound_message G uuid4_int kwargs w = (Ok m, w1) →
  (∀ st, publish_state (length (published w)) m = Ok st →
     ∃ d w',
       handle_raw_inbound_message G uuid4_int publish_state kwargs w = (Ok d, w')
       ∧ published w' = published w ++ [m]
       ∧ failed d = false
       ∧ (∀ e, st = Some (Failure e) →
            current d = Some (Value PyNone) ∧ logged w' = logged w ++ [e])
       ∧ (st = None →
            logged w' = logged w
            ∧ ∀ e w2, ∃ d2,
                fire (Failure e) d w2
                = (Ok d2, World (uuids_drawn w2) (published w2) (logged w2 ++ [e]))
                ∧ current d2 = Some (Value PyNone)))
  ∧ (∀ e, publish_state (length (published w)) m = Raise e →
       handle_raw_inbound_message G uuid4_int publish_state kwargs w
       = (Raise e, World (S (uuids_drawn w)) (published w ++ [m]) (logged w))).
Proof.
  intros Hm. pose proof (inbound_message_world kwargs w) as Hw.
  rewrite Hm in Hw. simpl in Hw. subst w1.
  rewrite handle_unfold, Hm. cbn [drawn published uuids_drawn logged]. split.
  - intros st ->. rewrite addErrback_log_err. cbn [drawn published uuids_drawn logged].
    destruct st as [[v|e]|].
    + eexists _, _. do 3 (split; [reflexivity|]).
      split; [intros e|]; discriminate.
    + eexists _, _. do 3 (split; [reflexivity|]).
      split; [|discriminate]. intros e' [= <-]. split; reflexivity.
    + eexists _, _. do 3 (split; [reflexivity|]).
      split; [intros e; discriminate|]. intros _. split; [reflexivity|].
      intros e w2. eexists. split; reflexivity.
  - intros e ->. reflexivity.
Qed.

(** C8, as the code has it: every canonical message the call publishes has
    the [message_type] argument as its [transport_type], [sms] when none
    is given, and so one of [sms] and [ussd] whenever the argument is; it
    has a [session_event] field only when its [transport_type] is [ussd]. *)
Theorem transport_type_is_message_type kwargs w d w' :
  handle_raw_inbound_message G uuid4_int publish_state kwargs w = (Ok d, w') →
  ∃ m,
    published w' = published w ++ [m]
    ∧ m !! "transport_type" = Some (dict_get kwargs "message_type" (PyStr "sms"))
    ∧ (kwargs !! "message_type" = None → m !! "transport_type" = Some (PyStr "sms"))
    ∧ (∀ t, kwargs !! "message_type" = Some (PyStr t) → t ∈ ["sms"; "ussd"] →
         m !! "transport_type" = Some (PyStr "sms")
         ∨ m !! "transport_type" = Some (PyStr "ussd"))
    ∧ (is_Some (m !! "session_event") → m !! "transport_type" = Some (PyStr "ussd")).
Proof.
  intros Hret.
  destruct (inbound_message G uuid4_int kwargs w) as [[m|e] w1] eqn:Hm.
  2:{ rewrite handle_unfold, Hm in Hret. discriminate. }
  pose proof (built_message_handed_over _ _ _ _ Hm) as Hp.
  rewrite Hret in Hp. cbn [snd] in Hp.
  destruct (inbound_message_fields _ _ _ _ Hm) as (_ & _ & _ & _ & Hty & Hrest).
  unfold message_type_of in Hty.
  exists m. split; [exact Hp|].
  split; [exact Hty|]. split.
  { intros Hnone. rewrite Hty. unfold dict_get. rewrite Hnone. reflexivity. }
  split.
  { intros t Ht Hin. rewrite Hty. unfold dict_get. rewrite Ht. simpl.
    apply elem_of_cons in Hin as [->|Hin]; [left; reflexivity|].
    apply elem_of_cons in Hin as [->|Hin]; [right; reflexivity|].
    inversion Hin. }
  intros Hev. destruct (is_ussd kwargs) eqn:Hu.
  - rewrite Hty. f_equal. apply py_eq_str_true. exact Hu.
  - destruct Hrest as [Hnone _]. rewrite Hnone in Hev. destruct Hev; discriminate.
Qed.


(** The table of session events knows three indicators only. *)
Lemma subscript_unknown (v_new v_resume v_close indicator : pyval) :
  (∀ s, indicator = PyStr s → s ∉ ["new"; "continue"; "close"]) →
  raised (subscript (<["close" := v_close]> (<["continue" := v_resume]>
                     (<["new" := v_new]> ∅))) indicator) = true.
Proof.
  intros Hunknown. destruct indicator as [|s| | |]; try reflexivity.
  specialize (Hunknown s eq_refl).
  unfold subscript, getitem.
  rewrite !lookup_insert_ne, lookup_empty; [reflexivity|..];
    intros <-; apply Hunknown; repeat constructor.
Qed.

(** C2, as the code has it: an inbound USSD message whose session
    indicator is none of "new", "continue" and "close" is dropped: nothing
    is published and nothing is logged, and the method does not catch the
    error: an exception reaches its caller. *)
Theorem unknown_indicator_raises kwargs w :
  is_ussd kwargs = true →
  known_indicator kwargs = false →
  ∃ e,
    handle_raw_inbound_message G uuid4_int publish_state kwargs w = (Raise e, drawn w)
    ∧ published (drawn w) = published w
    ∧ logged (drawn w) = logged w.
Proof.
  intros Hu Hk. rewrite handle_unfold.
  pose proof (inbound_message_world kwargs w) as Hw.
  assert (raised (fst (inbound_message G uuid4_int kwargs w)) = true) as Hr.
  { clear Hw. unfold is_ussd, message_type_of, dict_get in Hu. run_py.
    destruct (kwargs !! "destination_addr"); [|reflexivity].
    destruct (kwargs !! "source_addr"); [|reflexivity].
    destruct (kwargs !! "short_message"); [|reflexivity].
    rewrite Hu.
    destruct (load_global G "TransportUserMessage") as [c|]; [|reflexivity].
    destruct (getattr c "SESSION_NEW") as [v1|]; [|reflexivity].
    destruct (getattr c "SESSION_RESUME") as [v2|]; [|reflexivity].
    destruct (getattr c "SESSION_CLOSE") as [v3|]; [|reflexivity].
    unfold known_indicator in Hk.
    destruct (kwargs !! "session_event") as [ind|]; [|reflexivity].
    pose proof (subscript_unknown v1 v2 v3 ind) as Hsub.
    destruct (subscript _ ind); [|reflexivity].
    simpl in Hsub. exfalso. enough (false = true) by discriminate.
    apply Hsub. intros s -> Hin.
    apply bool_decide_eq_false in Hk. contradiction. }
  destruct (inbound_message G uuid4_int kwargs w) as [[m|e] w1]; [discriminate|].
  simpl in Hw. subst w1. eauto.
Qed.

End Facts.

(** The module never binds [TransportUserMessage]. *)
Lemma TransportUserMessage_unbound :
  load_global module_globals "TransportUserMessage"
  = Raise (NameError "TransportUserMessage").
Proof. reflexivity. Qed.

(** C1: in the module as it is, the USSD branch reads the global name
    [TransportUserMessage], which the module does not import: every USSD call
    that carries the three PDU fields raises [NameError] before the session
    indicator is looked at, whatever the indicator is, and publishes nothing. *)
Theorem ussd_raises_NameError uuid4_int publish_state kwargs w :
  has_required kwargs = true →
  is_ussd kwargs = true →
  handle_raw_inbound_message module_globals uuid4_int publish_state kwargs w
  = (Raise (NameError "TransportUserMessage"), drawn w).
Proof.
  intros Hreq Hu.
  destruct (has_required_inv _ Hreq) as (a & b & c & Ha & Hb & Hc).
  unfold is_ussd, message_type_of, dict_get in Hu.
  rewrite handle_unfold. run_py.
  rewrite Ha, Hb, Hc, Hu, TransportUserMessage_unbound. reflexivity.
Qed.

Lemma ussd_raises_NameError_witness :
  has_required (ussd_kwargs "new") = true
  ∧ is_ussd (ussd_kwargs "new") = true
  ∧ handle_raw_inbound_message module_globals count_up pending (ussd_kwargs "new") w0
    = (Raise (NameError "TransportUserMessage"), drawn w0).
Proof.
  split; [reflexivity|]. split; [reflexivity|].
  apply (ussd_raises_NameError count_up pending (ussd_kwargs "new") w0); reflexivity.
Defined.

(** With the class imported, the USSD branch runs to its end for an
    indicator the table knows, and stores the mapped event. *)
Lemma inbound_message_with_import uuid4_int kwargs w indicator event :
  has_required kwargs = true →
  is_ussd kwargs = true →
  kwargs !! "session_event" = Some (PyStr indicator) →
  session_event_for indicator = Some event →
  ∃ m, inbound_message globals_with_import uuid4_int kwargs w = (Ok m, drawn w)
       ∧ m !! "session_event" = Some (PyStr event).
Proof.
  intros Hreq Hu Hind Hev.
  destruct (has_required_inv _ Hreq) as (a & b & c & Ha & Hb & Hc).
  unfold is_ussd, message_type_of, dict_get in Hu. run_py.
  rewrite Ha, Hb, Hc, Hu, Hind.
  change (load_global globals_with_import "TransportUserMessage")
    with (Ok TransportUserMessage).
  cbn [getattr TransportUserMessage].
  unfold session_event_for in Hev.
  destruct (String.eqb_spec indicator "new") as [->|_];
    [|destruct (String.eqb_spec indicator "continue") as [->|_];
      [|destruct (String.eqb_spec indicator "close") as [->|_]; [|discriminate]]];
    injection Hev as <-; eexists; split; reflexivity.
Qed.

(** With the class imported, the same method maps the indicator as the table
    says and stores the result on the message it hands over. *)
Lemma ussd_mapping_with_import uuid4_int publish_state kwargs w indicator event :
  has_required kwargs = true →
  is_ussd kwargs = true →
  kwargs !! "session_event" = Some (PyStr indicator) →
  session_event_for indicator = Some event →
  ∃ m,
    published (snd (handle_raw_inbound_message globals_with_import uuid4_int
                      publish_state kwargs w))
    = published w ++ [m]
    ∧ m !! "session_event" = Some (PyStr event).
Proof.
  intros Hreq Hu Hind Hev.
  destruct (inbound_message_with_import uuid4_int kwargs w indicator event
              Hreq Hu Hind Hev) as (m & Hm & Hse).
  exists m. split; [|exact Hse].
  apply (built_message_handed_over _ _ _ _ _ _ _ Hm).
Qed.

Lemma known_indicator_inv kwargs :
  known_indicator kwargs = true →
  ∃ indicator event,
    kwargs !! "session_event" = Some (PyStr indicator)
    ∧ session_event_for indicator = Some event.
Proof.
  unfold known_indicator.
  destruct (kwargs !! "session_event") as [[|s| | |]|]; try discriminate.
  intros Hin. apply bool_decide_eq_true in Hin. exists s.
  apply elem_of_cons in Hin as [->|Hin]; [eexists; split; reflexivity|].
  apply elem_of_cons in Hin as [->|Hin]; [eexists; split; reflexivity|].
  apply elem_of_cons in Hin as [->|Hin]; [eexists; split; reflexivity|].
  inversion Hin.
Qed.

(** C3: an inbound short message that carries the three PDU fields and is
    not USSD is rebuilt as one canonical message, the one value handed to
    [publish_message]: [to_addr], [from_addr] and [content] are the PDU's
    [destination_addr], [source_addr] and [short_message], and
    [transport_metadata] is the empty mapping. With [TransportUserMessage]
    imported the same holds for a USSD message with a known indicator, whose
    metadata then holds [session_info]. In the module as it is, the USSD
    message is not rebuilt: the call raises [NameError] and hands nothing
    over. *)
Theorem inbound_message_reconstructed uuid4_int publish_state kwargs w :
  has_required kwargs = true →
  (is_ussd kwargs = false → ∀ G, ∃ m,
     published (snd (handle_raw_inbound_message G uuid4_int publish_state kwargs w))
     = published w ++ [m]
     ∧ m !! "to_addr" = kwargs !! "destination_addr"
     ∧ m !! "from_addr" = kwargs !! "source_addr"
     ∧ m !! "content" = kwargs !! "short_message"
     ∧ m !! "transport_metadata" = Some (PyDict ∅))
  ∧ (is_ussd kwargs = true → known_indicator kwargs = true → ∃ m,
       published (snd (handle_raw_inbound_message globals_with_import uuid4_int
                         publish_state kwargs w))
       = published w ++ [m]
       ∧ m !! "to_addr" = kwargs !! "destination_addr"
       ∧ m !! "from_addr" = kwargs !! "source_addr"
       ∧ m !! "content" = kwargs !! "short_message"
       ∧ m !! "transport_metadata"
         = Some (PyDict {[ "session_info" := dict_get kwargs "session_info" PyNone ]}))
  ∧ (is_ussd kwargs = true →
       handle_raw_inbound_message module_globals uuid4_int publish_state kwargs w
       = (Raise (NameError "TransportUserMessage"), drawn w)
       ∧ published (drawn w) = published w).
Proof.
  intros Hreq. split; [|split].
  - intros Hsms G.
    destruct (has_required_inv _ Hreq) as (a & b & c & Ha & Hb & Hc).
    pose proof (inbound_message_sms G uuid4_int kwargs w a b c Ha Hb Hc Hsms) as Hm.
    destruct (inbound_message_fields _ _ _ _ _ _ Hm)
      as (_ & Hto & Hfrom & Hcont & _ & Hrest).
    rewrite Hsms in Hrest. destruct Hrest as [_ Hmeta].
    eexists. split; [apply (built_message_handed_over _ _ _ _ _ _ _ Hm)|]. auto.
  - intros Hu Hk. destruct (known_indicator_inv _ Hk) as (ind & ev & Hind & Hev).
    destruct (inbound_message_with_import uuid4_int kwargs w ind ev Hreq Hu Hind Hev)
      as (m & Hm & _).
    destruct (inbound_message_fields _ _ _ _ _ _ Hm)
      as (_ & Hto & Hfrom & Hcont & _ & Hrest).
    rewrite Hu in Hrest. destruct Hrest as [_ Hmeta].
    exists m. split; [apply (built_message_handed_over _ _ _ _ _ _ _ Hm)|]. auto.
  - intros Hu. split; [|reflexivity].
    destruct (has_required_inv _ Hreq) as (a & b & c & Ha & Hb & Hc).
    unfold is_ussd, message_type_of, dict_get in Hu.
    rewrite handle_unfold. run_py.
    rewrite Ha, Hb, Hc, Hu, TransportUserMessage_unbound. reflexivity.
Qed.

Lemma inbound_message_reconstructed_witness :
  has_required (ussd_kwargs "new") = true
  ∧ is_ussd (ussd_kwargs "new") = true
  ∧ handle_raw_inbound_message module_globals count_up pending (ussd_kwargs "new") w0
    = (Raise (NameError "TransportUserMessage"), drawn w0)
  ∧ published (drawn w0) = published w0.
Proof.
  do 2 (split; [reflexivity|]).
  apply (inbound_message_reconstructed count_up pending (ussd_kwargs "new") w0);
    reflexivity.
Defined.

(** For an SMS the same call hands the rebuilt message over. *)
Example sms_message_handed_over :
  (λ m : gmap string pyval, (m !! "to_addr", m !! "from_addr", m !! "content",
                             m !! "transport_metadata")) <$>
    published (snd (handle_raw_inbound_message module_globals count_up raising
                      sms_kwargs w0))
  = [(Some (PyStr "1234"), Some (PyStr "+27831234567"), Some (PyStr "hello"),
      Some (PyDict ∅))].
Proof. reflexivity. Qed.

(** C2 fails as stated: an unknown indicator makes the call raise, in the
    module as it is and with the class imported alike. *)
Lemma unknown_indicator_escapes :
  fst (handle_raw_inbound_message module_globals count_up pending (ussd_kwargs "bogus") w0)
  = Raise (NameError "TransportUserMessage")
  ∧ fst (handle_raw_inbound_message globals_with_import count_up pending
           (ussd_kwargs "bogus") w0)
    = Raise (KeyError (PyStr "bogus")).
Proof. split; reflexivity. Qed.

Lemma unknown_indicator_raises_witness :
  is_ussd (ussd_kwargs "bogus") = true
  ∧ known_indicator (ussd_kwargs "bogus") = false
  ∧ ∃ e,
      handle_raw_inbound_message globals_with_import count_up pending
        (ussd_kwargs "bogus") w0 = (Raise e, drawn w0)
      ∧ published (drawn w0) = published w0
      ∧ logged (drawn w0) = logged w0.
Proof.
  split; [reflexivity|]. split; [reflexivity|].
  apply (unknown_indicator_raises globals_with_import count_up pending
           (ussd_kwargs "bogus") w0); reflexivity.
Defined.

(** C10: in the module as it is, a USSD call without [session_event] does
    not get as far as the key lookup: it raises [NameError] for the class
    the module does not import. With the class imported the same call raises
    the key-lookup error. Either way nothing is published. *)
Theorem ussd_missing_session_event uuid4_int publish_state kwargs w :
  has_required kwargs = true →
  is_ussd kwargs = true →
  kwargs !! "session_event" = None →
  handle_raw_inbound_message module_globals uuid4_int publish_state kwargs w
  = (Raise (NameError "TransportUserMessage"), drawn w)
  ∧ handle_raw_inbound_message globals_with_import uuid4_int publish_state kwargs w
    = (Raise (KeyError (PyStr "session_event")), drawn w).
Proof.
  intros Hreq Hu Hnone.
  destruct (has_required_inv _ Hreq) as (a & b & c & Ha & Hb & Hc).
  unfold is_ussd, message_type_of, dict_get in Hu.
  rewrite !handle_unfold. run_py.
  rewrite Ha, Hb, Hc, Hu, Hnone, TransportUserMessage_unbound.
  split; reflexivity.
Qed.

Lemma ussd_missing_session_event_witness :
  has_required (<["message_type" := PyStr "ussd"]> sms_kwargs) = true
  ∧ is_ussd (<["message_type" := PyStr "ussd"]> sms_kwargs) = true
  ∧ (<["message_type" := PyStr "ussd"]> sms_kwargs) !! "session_event" = None
  ∧ handle_raw_inbound_message module_globals count_up pending
      (<["message_type" := PyStr "ussd"]> sms_kwargs) w0
    = (Raise (NameError "TransportUserMessage"), drawn w0)
  ∧ handle_raw_inbound_message globals_with_import count_up pending
      (<["message_type" := PyStr "ussd"]> sms_kwargs) w0
    = (Raise (KeyError (PyStr "session_event")), drawn w0).
Proof.
  do 3 (split; [reflexivity|]).
  apply (ussd_missing_session_event count_up pending
           (<["message_type" := PyStr "ussd"]> sms_kwargs) w0); reflexivity.
Defined.

(** C7 fails as stated: an exception raised by [publish_message] itself
    leaves the method, and nothing is logged. *)
Lemma publish_raise_escapes :
  fst (handle_raw_inbound_message module_globals count_up raising sms_kwargs w0)
  = Raise (OtherError "missing message field")
  ∧ logged (snd (handle_raw_inbound_message module_globals count_up raising
                   sms_kwargs w0)) = [].
Proof. split; reflexivity. Qed.

Lemma publish_failure_is_logged_witness :
  ∃ m w1,
    inbound_message module_globals count_up sms_kwargs w0 = (Ok m, w1)
    ∧ ∃ d w',
        handle_raw_inbound_message module_globals count_up failing sms_kwargs w0 = (Ok d, w')
        ∧ published w' = published w0 ++ [m]
        ∧ failed d = false
        ∧ current d = Some (Value PyNone)
        ∧ logged w' = logged w0 ++ [OtherError "cannot serialize to JSON"].
Proof.
  eexists _, _. split; [reflexivity|].
  destruct (publish_failure_is_logged module_globals count_up failing sms_kwargs w0 _ _
              eq_refl) as [Hdeferred _].
  destruct (Hdeferred _ eq_refl) as (d & w' & Hret & Hpub & Hfailed & Hlogged & _).
  destruct (Hlogged _ eq_refl) as [Hcur Hlog].
  exists d, w'. auto.
Defined.

(** C8 fails as stated: a [message_type] that is neither [sms] nor [ussd]
    goes through to the published message unchanged. *)
Lemma transport_type_outside_sms_ussd :
  (λ m : gmap string pyval, m !! "transport_type") <$>
    published (snd (handle_raw_inbound_message module_globals count_up pending
                      (<["message_type" := PyStr "mms"]> sms_kwargs) w0))
  = [Some (PyStr "mms")].
Proof. reflexivity. Qed.

Lemma transport_type_is_message_type_witness :
  ∃ d w',
    handle_raw_inbound_message module_globals count_up pending sms_kwargs w0 = (Ok d, w')
    ∧ ∃ m,
        published w' = published w0 ++ [m]
        ∧ m !! "transport_type" = Some (dict_get sms_kwargs "message_type" (PyStr "sms"))
        ∧ (sms_kwargs !! "message_type" = None → m !! "transport_type" = Some (PyStr "sms"))
        ∧ (∀ t, sms_kwargs !! "message_type" = Some (PyStr t) → t ∈ ["sms"; "ussd"] →
             m !! "transport_type" = Some (PyStr "sms")
             ∨ m !! "transport_type" = Some (PyStr "ussd"))
        ∧ (is_Some (m !! "session_event") → m !! "transport_type" = Some (PyStr "ussd")).
Proof.
  eexists _, _. split; [reflexivity|].
  eapply (transport_type_is_message_type module_globals count_up pending sms_kwargs w0).
  reflexivity.
Defined.



End InboundFacts.

(** ** Teardown and the connection supervisor *)

Module LifecycleFacts.
Import Lifecycle.



Lemma stopService_idempotent s : stopService (stopService s) = stopService s.
Proof. reflexivity. Qed.

Lemma _close_idempotent r : _close (_close r) = _close r.
Proof. reflexivity. Qed.




(** A running supervisor, by contrast, does attempt again after a loss. *)
Example running_supervisor_retries :
  attempts_of (transport_events (setup_transport (new_transport example_config))
                 [Connected; ConnectionLost; RetryTimer]) = 2.
Proof. reflexivity. Qed.

(** ** Sequence partitions *)




Lemma setup_partition_of config :
  partition_of (setup_transport (new_transport config)) = Some (redis_prefix config).
Proof. reflexivity. Qed.



End LifecycleFacts.

(** ** The bind-on-connect hook *)

Module ProtocolFacts.
Import Protocol.

Section Hook.
(** Any base factory the transport's factory may be derived from. *)
Variable base_factory : factory.

#[local] Abbreviation transport_protocol :=
  (protocol (SmppTransportClientFactory base_factory)).

Lemma factory_protocol :
  transport_protocol = SmppTransceiverProtocol (protocol base_factory).
Proof. reflexivity. Qed.

Lemma resolve_hook :
  resolve transport_protocol "onConnectionMade" = Some (CallSelf "bind").
Proof. reflexivity. Qed.

(** Every other attribute is the base protocol's. *)
Lemma resolve_inherited name :
  name ≠ "onConnectionMade" →
  resolve transport_protocol name = resolve (protocol base_factory) name.
Proof.
  intros Hne. cbn [SmppTransportClientFactory protocol SmppTransceiverProtocol resolve].
  rewrite lookup_singleton_ne by congruence. reflexivity.
Qed.

Lemma invoke_hook depth s :
  invoke (S depth) transport_protocol "onConnectionMade" s
  = invoke depth transport_protocol "bind" s.
Proof. reflexivity. Qed.

(** C6: the transport's factory builds [SmppTransceiverProtocol]; its
    [onConnectionMade] is a call of [bind] on the same protocol, and it is
    the one attribute in which the class differs from the base protocol.
    Where the base protocol calls the hook on connection and its [bind] is
    the UNBOUND to BINDING transition, a connection that opens on an
    unbound session sends [bind_transceiver] with the configured
    credentials at once and leaves the session BINDING. *)
Theorem bind_on_connect depth s :
  resolve (protocol base_factory) "connectionMade" = Some (CallSelf "onConnectionMade") →
  resolve (protocol base_factory) "bind" = Some (Native base_bind) →
  state s = UNBOUND →
  protocol (SmppTransportClientFactory base_factory)
  = SmppTransceiverProtocol (protocol base_factory)
  ∧ resolve transport_protocol "onConnectionMade" = Some (CallSelf "bind")
  ∧ (∀ name, name ≠ "onConnectionMade" →
       resolve transport_protocol name = resolve (protocol base_factory) name)
  ∧ invoke (S depth) transport_protocol "onConnectionMade" s
    = invoke depth transport_protocol "bind" s
  ∧ invoke (S depth) transport_protocol "onConnectionMade" s
    = (Ok (), MkSession BINDING (credentials s)
                (written s ++ [bind_transceiver (fst (credentials s)) (snd (credentials s))])
                true)
  ∧ invoke (S (S depth)) transport_protocol "connectionMade" s
    = invoke (S depth) transport_protocol "onConnectionMade" s.
Proof.
  intros Hconn Hbind Hs.
  split; [reflexivity|]. split; [apply resolve_hook|].
  split; [apply resolve_inherited|]. split; [apply invoke_hook|].
  split.
  - rewrite invoke_hook.
    assert (resolve transport_protocol "bind" = Some (Native base_bind)) as Hb.
    { rewrite resolve_inherited by discriminate. exact Hbind. }
    destruct depth; cbn [invoke]; rewrite Hb; unfold base_bind; rewrite Hs; reflexivity.
  - assert (resolve transport_protocol "connectionMade"
            = Some (CallSelf "onConnectionMade")) as Hc.
    { rewrite resolve_inherited by discriminate. exact Hconn. }
    change (invoke (S (S depth)) transport_protocol "connectionMade" s)
      with (match resolve transport_protocol "connectionMade" with
            | None => (Raise (AttributeError "connectionMade"), s)
            | Some (Native run) => run s
            | Some (CallSelf m) => invoke (S depth) transport_protocol m s
            end).
    rewrite Hc. reflexivity.
Qed.

End Hook.

Lemma bind_on_connect_witness :
  resolve (protocol EsmeTransceiverFactory) "connectionMade"
  = Some (CallSelf "onConnectionMade")
  ∧ resolve (protocol EsmeTransceiverFactory) "bind" = Some (Native base_bind)
  ∧ state fresh_session = UNBOUND
  ∧ invoke 2 (protocol (SmppTransportClientFactory EsmeTransceiverFactory))
      "connectionMade" fresh_session
    = (Ok (), MkSession BINDING ("vumi", "secret") [bind_transceiver "vumi" "secret"] true).
Proof.
  do 3 (split; [reflexivity|]).
  destruct (bind_on_connect EsmeTransceiverFactory 0 fresh_session
              eq_refl eq_refl eq_refl) as (_ & _ & _ & _ & Hbound & Hconn).
  rewrite Hconn. exact Hbound.
Defined.

(** The base protocol on its own stays unbound when the connection opens. *)
Example base_protocol_does_not_bind :
  invoke 2 (protocol EsmeTransceiverFactory) "connectionMade" fresh_session
  = (Ok (), fresh_session).
Proof. reflexivity. Qed.

End ProtocolFacts.

(** ** More on the inbound path *)

Module InboundMore.
Import Inbound InboundFacts Usage.

Section More.
Variable G : gmap string pyval.
Variable uuid4_int : nat → N.
Variable publish_state : nat → gmap string pyval → result (option outcome).

(** What a call leaves behind, by how the message construction ends. *)
Lemma handle_cases kwargs w :
  (∃ e,
     inbound_message G uuid4_int kwargs w = (Raise e, drawn w)
     ∧ handle_raw_inbound_message G uuid4_int publish_state kwargs w = (Raise e, drawn w))
  ∨ (∃ m r w',
       inbound_message G uuid4_int kwargs w = (Ok m, drawn w)
       ∧ handle_raw_inbound_message G uuid4_int publish_state kwargs w = (r, w')
       ∧ uuids_drawn w' = S (uuids_drawn w)
       ∧ published w' = published w ++ [m]
       ∧ (∃ errs, logged w' = logged w ++ errs)
       ∧ (raised r = true → logged w' = logged w)).
Proof.
  rewrite handle_unfold.
  pose proof (inbound_message_world G uuid4_int kwargs w) as Hw.
  destruct (inbound_message G uuid4_int kwargs w) as [[m|e] w1]; simpl in Hw; subst w1.
  - right. destruct (publish_state _ m) as [[[v|e]|]|e];
      rewrite ?addErrback_log_err; eexists m, _, _;
      (split; [reflexivity|]); (split; [reflexivity|]);
      (split; [reflexivity|]); (split; [reflexivity|]).
    + split; [|discriminate]. exists []. symmetry. apply app_nil_r.
    + split; [|discriminate]. exists [e]. reflexivity.
    + split; [|discriminate]. exists []. symmetry. apply app_nil_r.
    + split; [|reflexivity]. exists []. symmetry. apply app_nil_r.
  - left. eauto.
Qed.

Lemma handle_uuids_drawn kwargs w :
  uuids_drawn (snd (handle_raw_inbound_message G uuid4_int publish_state kwargs w))
  = S (uuids_drawn w).
Proof.
  destruct (handle_cases kwargs w)
    as [(e & _ & ->) | (m & r & w' & _ & -> & Hn & _)];
    [reflexivity | exact Hn].
Qed.

(** X1: a call that lacks one of [destination_addr], [source_addr] and
    [short_message] raises [KeyError] for the first of them that is
    missing, in this order, whatever else is missing or present; nothing is
    published or logged. *)
Theorem first_missing_key_is_reported kwargs w key :
  first_missing kwargs = Some key →
  handle_raw_inbound_message G uuid4_int publish_state kwargs w
  = (Raise (KeyError (PyStr key)), drawn w).
Proof.
  unfold first_missing, required_keys. cbn [List.find].
  rewrite handle_unfold. run_py.
  destruct (kwargs !! "destination_addr") as [a|].
  2:{ rewrite bool_decide_eq_false_2 by (intros [? [=]]). intros [= <-]. reflexivity. }
  rewrite bool_decide_eq_true_2 by eauto. cbn [negb].
  destruct (kwargs !! "source_addr") as [b|].
  2:{ rewrite bool_decide_eq_false_2 by (intros [? [=]]). intros [= <-]. reflexivity. }
  rewrite bool_decide_eq_true_2 by eauto. cbn [negb].
  destruct (kwargs !! "short_message") as [c|].
  2:{ rewrite bool_decide_eq_false_2 by (intros [? [=]]). intros [= <-]. reflexivity. }
  rewrite bool_decide_eq_true_2 by eauto. discriminate.
Qed.

(** X2: every call draws exactly one UUID, whether it returns or raises:
    [uuid4()] is called before the first subscript that can raise. A call
    that raises logs nothing, and one that raises while the message is
    built hands nothing to [publish_message] either. *)
Theorem every_call_draws_one_uuid kwargs w :
  uuids_drawn (snd (handle_raw_inbound_message G uuid4_int publish_state kwargs w))
  = S (uuids_drawn w)
  ∧ (raised (fst (handle_raw_inbound_message G uuid4_int publish_state kwargs w)) = true →
     logged (snd (handle_raw_inbound_message G uuid4_int publish_state kwargs w))
     = logged w)
  ∧ (∀ e w1, inbound_message G uuid4_int kwargs w = (Raise e, w1) →
     handle_raw_inbound_message G uuid4_int publish_state kwargs w
     = (Raise e, drawn w)).
Proof.
  destruct (handle_cases kwargs w)
    as [(e & -> & ->) | (m & r & w' & -> & -> & Hn & _ & _ & Hlog)].
  - split; [reflexivity|]. split; [reflexivity|]. intros e' w1 [= <- _]. reflexivity.
  - split; [exact Hn|]. split; [exact Hlog | discriminate].
Qed.

(** X3: the message has the six keys of the dict display, and
    [session_event] besides when the message type is [ussd]; no other
    keyword argument gets into the message. *)
Theorem message_has_fixed_keys kwargs w m w1 :
  inbound_message G uuid4_int kwargs w = (Ok m, w1) →
  dom m = if is_ussd kwargs then message_keys ∪ {[ "session_event" ]} else message_keys.
Proof.
  unfold is_ussd, message_type_of, message_keys. run_py.
  destruct (kwargs !! "destination_addr") as [a|]; [|discriminate].
  destruct (kwargs !! "source_addr") as [b|]; [|discriminate].
  destruct (kwargs !! "short_message") as [c|]; [|discriminate].
  destruct (py_eq_str _ "ussd").
  - destruct (load_global G "TransportUserMessage") as [cls|]; [|discriminate].
    destruct (getattr cls "SESSION_NEW"); [|discriminate].
    destruct (getattr cls "SESSION_RESUME"); [|discriminate].
    destruct (getattr cls "SESSION_CLOSE"); [|discriminate].
    destruct (kwargs !! "session_event"); [|discriminate].
    destruct (subscript _ _) as [ev|]; [|discriminate].
    unfold setitem_in. rewrite lookup_insert_ne, lookup_insert_eq by done.
    intros [= <- _]. rewrite !dom_insert_L, dom_empty_L. set_solver.
  - intros [= <- _]. rewrite !dom_insert_L, dom_empty_L. set_solver.
Qed.

(** X4: the call reads [message_type] and the three required keys, and
    [session_event] and [session_info] when the type is [ussd]; two calls
    whose arguments agree on these do the same, whatever else they carry. *)
Theorem unread_arguments_are_ignored k1 k2 w :
  k1 !! "message_type" = k2 !! "message_type" →
  k1 !! "destination_addr" = k2 !! "destination_addr" →
  k1 !! "source_addr" = k2 !! "source_addr" →
  k1 !! "short_message" = k2 !! "short_message" →
  (is_ussd k1 = true →
     k1 !! "session_event" = k2 !! "session_event"
     ∧ k1 !! "session_info" = k2 !! "session_info") →
  handle_raw_inbound_message G uuid4_int publish_state k1 w
  = handle_raw_inbound_message G uuid4_int publish_state k2 w.
Proof.
  intros Hty Ha Hb Hc Hussd. rewrite !handle_unfold.
  enough (inbound_message G uuid4_int k1 w = inbound_message G uuid4_int k2 w) as ->
    by reflexivity.
  revert Hussd. unfold is_ussd, message_type_of. run_py.
  rewrite Hty, Ha, Hb, Hc.
  destruct (py_eq_str _ "ussd"); [|reflexivity].
  intros Hs. destruct (Hs eq_refl) as [-> ->]. reflexivity.
Qed.

(** X5: a publication that succeeds reaches the caller untouched: the
    value the publisher's Deferred fired with, or fires with later, is the
    result of the Deferred the call returns, and nothing is logged. *)
Theorem publish_success_passes_through kwargs w m w1 st :
  inbound_message G uuid4_int kwargs w = (Ok m, w1) →
  publish_state (length (published w)) m = Ok st →
  ∃ d w',
    handle_raw_inbound_message G uuid4_int publish_state kwargs w = (Ok d, w')
    ∧ (∀ v, st = Some (Value v) →
         current d = Some (Value v) ∧ logged w' = logged w)
    ∧ (st = None →
         logged w' = logged w
         ∧ ∀ v w2, fire (Value v) d w2 = (Ok (MkDeferred (Some (Value v)) []), w2)).
Proof.
  intros Hm Hst. pose proof (inbound_message_world G uuid4_int kwargs w) as Hw.
  rewrite Hm in Hw. simpl in Hw. subst w1.
  rewrite handle_unfold, Hm. cbn [drawn published]. rewrite Hst, addErrback_log_err.
  clear Hst. simpl. destruct st as [[v|e]|].
  - eexists _, _. split; [reflexivity|]. split; [|discriminate].
    intros v' [= <-]. split; reflexivity.
  - eexists _, _. split; [reflexivity|]. split; [intros v|]; discriminate.
  - eexists _, _. split; [reflexivity|]. split; [intros v; discriminate|].
    intros _. split; [reflexivity|]. intros v w2. reflexivity.
Qed.

(** X6: wherever the USSD branch runs to its end, the message's
    [transport_metadata] holds [session_info] and nothing else, with [None]
    for a call that gives no [session_info]. *)
Theorem ussd_metadata_is_session_info kwargs w m w1 :
  inbound_message G uuid4_int kwargs w = (Ok m, w1) →
  is_ussd kwargs = true →
  m !! "transport_metadata"
  = Some (PyDict {[ "session_info" := default PyNone (kwargs !! "session_info") ]})
  ∧ (kwargs !! "session_info" = None →
     m !! "transport_metadata" = Some (PyDict {[ "session_info" := PyNone ]})).
Proof.
  intros Hm Hu.
  destruct (inbound_message_fields G uuid4_int _ _ _ _ Hm) as (_ & _ & _ & _ & _ & Hrest).
  rewrite Hu in Hrest. destruct Hrest as [_ Hmeta]. unfold dict_get in Hmeta.
  split; [exact Hmeta|]. intros Hnone. rewrite Hmeta, Hnone. reflexivity.
Qed.

Lemma handle_all_cons kwargs batch w :
  handle_all G uuid4_int publish_state (kwargs :: batch) w
  = handle_all G uuid4_int publish_state batch
      (snd (handle_raw_inbound_message G uuid4_int publish_state kwargs w)).
Proof. reflexivity. Qed.

Lemma Some_PyStr_inj (a b : string) : Some (PyStr a) = Some (PyStr b) → a = b.
Proof. congruence. Qed.

(** One call publishes nothing or one message, whose identifier is the
    UUID the call drew. *)
Lemma handle_step kwargs w :
  ∃ ms,
    published (snd (handle_raw_inbound_message G uuid4_int publish_state kwargs w))
    = published w ++ ms
    ∧ (ms = [] ∨ ∃ m, ms = [m]
                      ∧ m !! "message_id" = Some (PyStr (message_id_at uuid4_int w))).
Proof.
  destruct (handle_cases kwargs w)
    as [(e & _ & ->) | (m & r & w' & Hm & -> & _ & Hp & _)].
  - exists []. split; [symmetry; apply app_nil_r | left; reflexivity].
  - exists [m]. split; [exact Hp|]. right. exists m. split; [reflexivity|].
    apply (inbound_message_fields G uuid4_int _ _ _ _ Hm).
Qed.

(** X7: over any run of calls the transport only ever adds: the messages
    published and the failures logged before stay, in place, in front of the
    new ones; a run of [n] calls publishes at most [n] messages and draws
    exactly [n] UUIDs. *)
Theorem batch_is_append_only batch : ∀ w,
  ∃ ms errs,
    published (handle_all G uuid4_int publish_state batch w) = published w ++ ms
    ∧ logged (handle_all G uuid4_int publish_state batch w) = logged w ++ errs
    ∧ (length ms ≤ length batch)%nat
    ∧ uuids_drawn (handle_all G uuid4_int publish_state batch w)
      = uuids_drawn w + length batch.
Proof.
  induction batch as [|kwargs batch IH]; intros w.
  - exists [], []. cbn. rewrite !app_nil_r. repeat split; lia.
  - rewrite handle_all_cons.
    destruct (IH (snd (handle_raw_inbound_message G uuid4_int publish_state kwargs w)))
      as (ms & errs & Hp & Hl & Hlen & Hn).
    destruct (handle_cases kwargs w)
      as [(e & _ & Hr) | (m & r & w' & _ & Hr & Hn1 & Hp1 & (errs1 & Hl1) & _)];
      rewrite Hr in *; cbn [snd] in *.
    + exists ms, errs. cbn [drawn published logged uuids_drawn length] in *.
      repeat split; [assumption | assumption | lia | lia].
    + exists (m :: ms), (errs1 ++ errs).
      rewrite Hp, Hl, Hn, Hp1, Hl1, Hn1, <- !app_assoc. cbn [length app].
      repeat split; lia.
Qed.

(** The identifiers a run gives out are those of some of the UUIDs it drew,
    in drawing order. *)
Lemma batch_ids_from_draws batch : ∀ w,
  ∃ ms ns,
    published (handle_all G uuid4_int publish_state batch w) = published w ++ ms
    ∧ message_ids ms
      = (λ n, Some (PyStr (Uuid.hex (uuid4_int n mod 2 ^ 128)%N))) <$> ns
    ∧ ns `sublist_of` seq (uuids_drawn w) (length batch).
Proof.
  induction batch as [|kwargs batch IH]; intros w.
  - exists [], []. cbn. rewrite app_nil_r. repeat split. constructor.
  - rewrite handle_all_cons.
    destruct (IH (snd (handle_raw_inbound_message G uuid4_int publish_state kwargs w)))
      as (ms & ns & Hp & Hids & Hsub).
    rewrite handle_uuids_drawn in Hsub.
    destruct (handle_step kwargs w) as (ms1 & Hp1 & [-> | (m & -> & Hid)]).
    + rewrite app_nil_r in Hp1. rewrite Hp1 in Hp.
      exists ms, ns. split; [exact Hp|]. split; [exact Hids|].
      cbn [length seq]. apply sublist_cons. exact Hsub.
    + exists (m :: ms), (uuids_drawn w :: ns).
      split; [rewrite Hp, Hp1, <- app_assoc; reflexivity|].
      split.
      * unfold message_ids in *. cbn [fmap list_fmap]. rewrite Hid.
        f_equal. exact Hids.
      * cbn [length seq]. apply sublist_skip. exact Hsub.
Qed.

(** X8: when the UUIDs drawn during a run of calls are pairwise different,
    so are the [message_id]s of the messages the run publishes, and every
    one of these messages has one. *)
Theorem batch_message_ids_distinct batch w :
  (∀ i j, (uuids_drawn w ≤ i < uuids_drawn w + length batch)%nat →
          (uuids_drawn w ≤ j < uuids_drawn w + length batch)%nat →
          (uuid4_int i mod 2 ^ 128 = uuid4_int j mod 2 ^ 128)%N → i = j) →
  ∃ ms,
    published (handle_all G uuid4_int publish_state batch w) = published w ++ ms
    ∧ NoDup (message_ids ms)
    ∧ Forall (λ m : gmap string pyval, is_Some (m !! "message_id")) ms.
Proof.
  intros Hinj. destruct (batch_ids_from_draws batch w) as (ms & ns & Hp & Hids & Hsub).
  exists ms. split; [exact Hp|]. split.
  - rewrite Hids. apply NoDup_fmap_2_strong.
    + intros x y Hx Hy Heq. apply Some_PyStr_inj in Heq.
      apply (elem_of_sublist _ _ _ Hx) in Hsub as Hx'.
      apply (elem_of_sublist _ _ _ Hy) in Hsub as Hy'.
      apply elem_of_seq in Hx', Hy'.
      apply Hinj; [assumption | assumption |].
      apply UuidFacts.hex_inj. exact Heq.
    + eapply sublist_NoDup; [apply NoDup_seq | exact Hsub].
  - apply Forall_forall. intros m Hm.
    assert (m !! "message_id" ∈ message_ids ms) as Hin.
    { unfold message_ids. apply list_elem_of_fmap. eauto. }
    rewrite Hids in Hin. apply list_elem_of_fmap in Hin as (n & -> & _). eauto.
Qed.

End More.
Lemma first_missing_key_is_reported_witness :
  first_missing (delete "source_addr" (delete "short_message" sms_kwargs))
  = Some "source_addr"
  ∧ handle_raw_inbound_message module_globals count_up pending
      (delete "source_addr" (delete "short_message" sms_kwargs)) w0
    = (Raise (KeyError (PyStr "source_addr")), drawn w0).
Proof.
  split; [reflexivity|].
  apply (first_missing_key_is_reported module_globals count_up pending
           (delete "source_addr" (delete "short_message" sms_kwargs)) w0).
  reflexivity.
Defined.

Lemma message_has_fixed_keys_witness :
  ∃ m w1,
    inbound_message module_globals count_up
      (<["data_coding" := PyInt 3]> sms_kwargs) w0 = (Ok m, w1)
    ∧ dom m = message_keys.
Proof.
  eexists _, _. split; [reflexivity|].
  change message_keys
    with (if is_ussd (<["data_coding" := PyInt 3]> sms_kwargs)
          then message_keys ∪ {[ "session_event" ]} else message_keys).
  apply (message_has_fixed_keys module_globals count_up
           (<["data_coding" := PyInt 3]> sms_kwargs) w0 _ (drawn w0)).
  reflexivity.
Defined.

Lemma unread_arguments_are_ignored_witness :
  handle_raw_inbound_message module_globals count_up pending
    (<["session_event" := PyStr "close"]> (<["data_coding" := PyInt 3]> sms_kwargs)) w0
  = handle_raw_inbound_message module_globals count_up pending sms_kwargs w0.
Proof.
  apply (unread_arguments_are_ignored module_globals count_up pending
           (<["session_event" := PyStr "close"]> (<["data_coding" := PyInt 3]> sms_kwargs))
           sms_kwargs w0); try reflexivity.
  discriminate.
Defined.

Lemma publish_success_passes_through_witness :
  ∃ m w1,
    inbound_message module_globals count_up sms_kwargs w0 = (Ok m, w1)
    ∧ delivering (length (published w0)) m = Ok (Some (Value (PyDict m)))
    ∧ ∃ d w',
        handle_raw_inbound_message module_globals count_up delivering sms_kwargs w0
        = (Ok d, w')
        ∧ (∀ v, Some (Value (PyDict m)) = Some (Value v) →
             current d = Some (Value v) ∧ logged w' = logged w0)
        ∧ (Some (Value (PyDict m)) = None →
             logged w' = logged w0
             ∧ ∀ v w2, fire (Value v) d w2 = (Ok (MkDeferred (Some (Value v)) []), w2)).
Proof.
  eexists _, _. split; [reflexivity|]. split; [reflexivity|].
  eapply (publish_success_passes_through module_globals count_up delivering sms_kwargs w0);
    reflexivity.
Defined.

Lemma ussd_metadata_is_session_info_witness :
  ∃ m w1,
    inbound_message globals_with_import count_up (ussd_kwargs "new") w0 = (Ok m, w1)
    ∧ is_ussd (ussd_kwargs "new") = true
    ∧ m !! "transport_metadata" = Some (PyDict {[ "session_info" := PyNone ]}).
Proof.
  eexists _, _. split; [reflexivity|]. split; [reflexivity|].
  apply (ussd_metadata_is_session_info globals_with_import count_up
           (ussd_kwargs "new") w0 _ (drawn w0)); reflexivity.
Defined.

Lemma count_up_distinct (i j : nat) :
  (i < 4)%nat → (j < 4)%nat →
  (count_up i mod 2 ^ 128 = count_up j mod 2 ^ 128)%N → i = j.
Proof.
  unfold count_up. intros Hi Hj.
  rewrite !N.mod_small by (apply N.lt_le_trans with 4%N; [lia | discriminate]).
  lia.
Qed.

Lemma batch_message_ids_distinct_witness :
  ∃ ms,
    published (handle_all module_globals count_up pending
                 [sms_kwargs; ussd_kwargs "new"; sms_kwargs] w0)
    = published w0 ++ ms
    ∧ NoDup (message_ids ms)
    ∧ Forall (λ m : gmap string pyval, is_Some (m !! "message_id")) ms.
Proof.
  apply (batch_message_ids_distinct module_globals count_up pending
           [sms_kwargs; ussd_kwargs "new"; sms_kwargs] w0).
  intros i j Hi Hj. apply count_up_distinct; cbn in Hi, Hj; lia.
Defined.

(** In the module as it is, the USSD call in the middle of that run
    publishes nothing and still uses up a UUID. *)
Example batch_skips_failed_call :
  message_ids (published (handle_all module_globals count_up pending
                            [sms_kwargs; ussd_kwargs "new"; sms_kwargs] w0))
  = [Some (PyStr "00000000000000000000000000000000");
     Some (PyStr "00000000000000000000000000000002")].
Proof. reflexivity. Qed.

End InboundMore.

(** ** More on setup and teardown *)

Module LifecycleMore.
Import Lifecycle Usage.

Lemma append_cons x (a b : string) : String x a +:+ b = String x (a +:+ b).
Proof. reflexivity. Qed.

Lemma append_nil (b : string) : "" +:+ b = b.
Proof. reflexivity. Qed.

Lemma append_assoc (a b c : string) : (a +:+ b) +:+ c = a +:+ (b +:+ c).
Proof.
  induction a as [|x a IH]; [reflexivity|].
  rewrite !append_cons. f_equal. exact IH.
Qed.

Lemma append_length (a b : string) :
  String.length (a +:+ b) = String.length a + String.length b.
Proof.
  induction a as [|x a IH]; [reflexivity|].
  rewrite append_cons. cbn [String.length]. rewrite IH. reflexivity.
Qed.

(** A string without the separator ends where the first separator stands. *)
Lemma has_at_split (s1 : string) : ∀ s2 t1 t2,
  has_at s1 = false → has_at s2 = false →
  s1 +:+ "@" +:+ t1 = s2 +:+ "@" +:+ t2 → s1 = s2 ∧ t1 = t2.
Proof.
  induction s1 as [|c s1 IH]; intros [|d s2] t1 t2 H1 H2 Heq;
    cbn [has_at] in H1, H2; rewrite ?append_cons, ?append_nil in Heq.
  - injection Heq as ->. split; reflexivity.
  - injection Heq as <- _. apply orb_false_elim in H2 as [H2 _]. discriminate.
  - injection Heq as -> _. apply orb_false_elim in H1 as [H1 _]. discriminate.
  - injection Heq as -> Heq.
    apply orb_false_elim in H1 as [_ H1]. apply orb_false_elim in H2 as [_ H2].
    destruct (IH s2 t1 t2 H1 H2 Heq) as [-> ->]. split; reflexivity.
Qed.

(** X9: the default prefix does not tell the system id from the transport
    name when they contain the separator: two configurations with different
    system ids and different transport names, and no split-bind prefix, get
    the same key, so their transports are set up on the same partition. *)
Theorem default_prefix_collides ep pw dr sm (a b c : string) :
  system_id (smpp_config (MkConfig ep c None (MkEsmeConfig (a +:+ "@" +:+ b) pw) dr sm))
  ≠ system_id (smpp_config (MkConfig ep (b +:+ "@" +:+ c) None (MkEsmeConfig a pw) dr sm))
  ∧ redis_prefix (MkConfig ep c None (MkEsmeConfig (a +:+ "@" +:+ b) pw) dr sm)
    = redis_prefix (MkConfig ep (b +:+ "@" +:+ c) None (MkEsmeConfig a pw) dr sm)
  ∧ partition_of (setup_transport (new_transport
        (MkConfig ep c None (MkEsmeConfig (a +:+ "@" +:+ b) pw) dr sm)))
    = partition_of (setup_transport (new_transport
        (MkConfig ep (b +:+ "@" +:+ c) None (MkEsmeConfig a pw) dr sm))).
Proof.
  assert (redis_prefix (MkConfig ep c None (MkEsmeConfig (a +:+ "@" +:+ b) pw) dr sm)
          = redis_prefix (MkConfig ep (b +:+ "@" +:+ c) None (MkEsmeConfig a pw) dr sm))
    as Heq.
  { unfold redis_prefix, py_or, default_prefix. cbn [split_bind_prefix smpp_config
      system_id transport_name]. rewrite !append_assoc. reflexivity. }
  split; [|split; [exact Heq|]].
  - cbn [smpp_config system_id]. intros H.
    apply (f_equal String.length) in H. rewrite append_length in H.
    change (String.length ("@" +:+ b)) with (S (String.length b)) in H. lia.
  - rewrite !LifecycleFacts.setup_partition_of. f_equal. exact Heq.
Qed.

(** X10: where the system ids contain no ["@"], the default prefix does
    tell configurations apart: equal default prefixes mean equal system ids
    and equal transport names. *)
Theorem default_prefix_separates c1 c2 :
  has_at (system_id (smpp_config c1)) = false →
  has_at (system_id (smpp_config c2)) = false →
  default_prefix c1 = default_prefix c2 →
  system_id (smpp_config c1) = system_id (smpp_config c2)
  ∧ transport_name c1 = transport_name c2.
Proof. unfold default_prefix. apply has_at_split. Qed.

Lemma default_prefix_separates_witness :
  has_at (system_id (smpp_config example_config)) = false
  ∧ has_at (system_id (smpp_config split_config)) = false
  ∧ default_prefix example_config = default_prefix split_config
  ∧ system_id (smpp_config example_config) = system_id (smpp_config split_config)
  ∧ transport_name example_config = transport_name split_config.
Proof.
  do 3 (split; [reflexivity|]).
  apply (default_prefix_separates example_config split_config); reflexivity.
Defined.

(** X11: the key the sequence store is scoped to is never the empty
    string: an empty split-bind prefix counts as none and gives the default
    prefix, and the default prefix always holds the separator. *)
Theorem redis_prefix_never_empty config :
  redis_prefix config ≠ ""
  ∧ (split_bind_prefix config = Some "" → redis_prefix config = default_prefix config).
Proof.
  assert (default_prefix config ≠ "") as Hd.
  { unfold default_prefix. intros H. apply (f_equal String.length) in H.
    rewrite append_length in H.
    change (String.length ("@" +:+ transport_name config))
      with (S (String.length (transport_name config))) in H.
    cbn [String.length] in H. lia. }
  unfold redis_prefix, py_or. split.
  - destruct (split_bind_prefix config) as [[|c s]|]; [exact Hd | discriminate | exact Hd].
  - intros ->. reflexivity.
Qed.

(** X12: with [self.service] holding [None], teardown does not call
    [stopService]; it calls [_close] on the store connection all the same,
    and returns when that call does, with the connection as [_close] left
    it. *)
Theorem teardown_without_service_closes_store redis_close t r r' :
  service t = IsNone →
  redis t = Obj r →
  redis_close r = Ok r' →
  ∃ t',
    teardown_transport redis_close t = (Ok (), t')
    ∧ calls t' = calls t ++ [CloseStore (partition_key r)]
    ∧ service t' = IsNone
    ∧ redis t' = Obj r'.
Proof.
  intros Hs Hr Hclose. unfold teardown_transport, stop_if_service, close_redis.
  rewrite Hs, Hr, Hclose. eexists. split; [reflexivity|]. cbn. rewrite Hs.
  repeat split.
Qed.

Lemma teardown_without_service_closes_store_witness :
  ∃ t',
    teardown_transport (λ r, Ok (_close r))
      (without_service (setup_transport (new_transport example_config)))
    = (Ok (), t')
    ∧ calls t'
      = calls (without_service (setup_transport (new_transport example_config)))
        ++ [CloseStore (partition_key (MkRedis "vumi@smpp_transport" true))]
    ∧ service t' = IsNone
    ∧ redis t' = Obj (_close (MkRedis "vumi@smpp_transport" true)).
Proof.
  apply (teardown_without_service_closes_store (λ r, Ok (_close r))
           (without_service (setup_transport (new_transport example_config)))
           (MkRedis "vumi@smpp_transport" true)); reflexivity.
Defined.



End LifecycleMore.

(** ** More on the protocol hook *)

Module ProtocolMore.
Import Protocol Usage.

(** X14: [onConnectionMade] calls [bind] through [self]: in a class derived
    from [SmppTransceiverProtocol] that keeps the hook and defines a [bind]
    of its own, a connection being made runs that [bind], whatever the base
    protocol's [bind] is. *)
Theorem hook_calls_overriding_bind base own run depth s :
  own !! "onConnectionMade" = None →
  own !! "bind" = Some (Native run) →
  invoke (S depth) (Class own (Some (SmppTransceiverProtocol base))) "onConnectionMade" s
  = run s.
Proof.
  intros Hhook Hbind. cbn [invoke resolve SmppTransceiverProtocol].
  rewrite Hhook, lookup_singleton_eq.
  destruct depth; cbn [invoke resolve]; rewrite Hbind; reflexivity.
Qed.

Lemma hook_calls_overriding_bind_witness :
  invoke 1 derived_protocol "onConnectionMade" fresh_session
  = (Ok (), MkSession UNBOUND ("vumi", "secret") [unbind] false).
Proof.
  apply (hook_calls_overriding_bind EsmeTransceiver {[ "bind" := Native own_bind ]}
           own_bind 0 fresh_session); reflexivity.
Defined.

(** X15: over a base protocol that has no [bind], the hook fails with
    [AttributeError] for [bind] when the connection is made, and the session
    is left as it was. *)
Theorem hook_without_bind_raises base depth s :
  resolve base "bind" = None →
  invoke (S depth) (SmppTransceiverProtocol base) "onConnectionMade" s
  = (Raise (AttributeError "bind"), s).
Proof.
  intros Hnone.
  assert (resolve (SmppTransceiverProtocol base) "bind" = None) as Hb.
  { cbn [resolve SmppTransceiverProtocol]. rewrite lookup_singleton_ne by discriminate.
    exact Hnone. }
  change (invoke (S depth) (SmppTransceiverProtocol base) "onConnectionMade" s)
    with (invoke depth (SmppTransceiverProtocol base) "bind" s).
  destruct depth; cbn [invoke]; rewrite Hb; reflexivity.
Qed.

Lemma hook_without_bind_raises_witness :
  resolve (Class ∅ None) "bind" = None
  ∧ invoke 1 (SmppTransceiverProtocol (Class ∅ None)) "onConnectionMade" fresh_session
    = (Raise (AttributeError "bind"), fresh_session).
Proof.
  split; [reflexivity|].
  apply (hook_without_bind_raises (Class ∅ None) 0 fresh_session). reflexivity.
Defined.

End ProtocolMore.
